(** * pollination_dsl.dag.inputs: input descriptors of a DAG

    A shallow embedding of [src/pollination_dsl/dag/inputs.py]: the ten
    input classes, the derived properties [required], [is_artifact] and
    [reference_type], the validator [empty_list_alias] and the conversion
    [to_queenbee].

    Python dictionaries are mutable objects reached through references.
    [to_queenbee] writes into a dictionary, so the dictionaries that hold
    annotations live in an explicit store and the descriptor keeps a
    reference into it; every other value is immutable in this file and is
    modelled by its contents. *)

From Stdlib Require Import ZArith Bool Ascii SpecFloat.
From stdpp Require Import base option list strings gmap fin_maps.

#[local] Set Warnings "-register-all".

(** ** Python values *)

(** The values a field annotated [Any], [str], [int], [float], [bool],
    [Dict] or [List] can hold.  A [float] is an IEEE 754 binary64 number,
    kept in the Standard Library's specification format. *)
Inductive Value :=
| VNone
| VBool (b : bool)
| VInt (n : Z)
| VFloat (x : spec_float)
| VStr (s : string)
| VList (items : list Value)
| VDict (entries : list (string * Value)).

(** [v is not None] *)
Definition is_not_None (v : Value) : bool :=
  match v with
  | VNone => false
  | _ => true
  end.

(** Python's truth value of an object, as tested by [if v:] and [v or w]. *)
Definition truthy (v : Value) : bool :=
  match v with
  | VNone => false
  | VBool b => b
  | VInt n => negb (n =? 0)%Z
  | VFloat (S754_zero _) => false
  | VFloat _ => true
  | VStr EmptyString => false
  | VStr _ => true
  | VList [] => false
  | VList _ => true
  | VDict [] => false
  | VDict _ => true
  end.

(** [s.replace(old, new)] for one-character [old] and [new]: every
    occurrence is replaced.  The two characters used below are ASCII, so
    working on the bytes of a UTF-8 string replaces the same code points. *)
Fixpoint replace (old new : ascii) (s : string) : string :=
  match s with
  | EmptyString => EmptyString
  | String c s' =>
      String (if Ascii.eqb c old then new else c) (replace old new s')
  end.

(** ** The store of dictionary objects *)

Abbreviation loc := positive (only parsing).
Abbreviation Dict := (gmap string Value) (only parsing).
Abbreviation Heap := (gmap positive (gmap string Value)) (only parsing).

(** Exceptions the modelled code can raise.  [DanglingReference] has no
    Python counterpart: it is the outcome of following a reference that
    the store does not hold, which no Python program can build. *)
Inductive Error :=
| KeyError
| TypeError
| ValidationError
| DanglingReference.

Inductive Result (A : Type) :=
| Ok (a : A)
| Raise (e : Error).
Arguments Ok {A} a.
Arguments Raise {A} e.

(** A computation reads and writes the store and returns or raises; what
    it wrote before raising stays written. *)
Definition M (A : Type) : Type := Heap → Heap * Result A.

#[global] Instance M_ret : MRet M := λ A a h, (h, Ok a).
#[global] Instance M_bind : MBind M := λ A B f m h,
  match m h with
  | (h', Ok a) => f a h'
  | (h', Raise e) => (h', Raise e)
  end.

Definition raise {A} (e : Error) : M A := λ h, (h, Raise e).

(** [{}]: a new, empty dictionary object. *)
Definition new_dict : M loc := λ h,
  let l := fresh (dom h) in (<[l := ∅]> h, Ok l).

(** The contents of the dictionary behind a reference. *)
Definition read_dict (l : loc) : M Dict := λ h,
  match h !! l with
  | Some d => (h, Ok d)
  | None => (h, Raise DanglingReference)
  end.

(** [d[k] = v] on the dictionary object behind [l]. *)
Definition setitem (l : loc) (k : string) (v : Value) : M unit := λ h,
  match h !! l with
  | Some d => (<[l := <[k := v]> d]> h, Ok tt)
  | None => (h, Raise DanglingReference)
  end.

(** Truth value of a dictionary: false exactly when it has no key. *)
Definition dict_truthy (d : Dict) : bool := negb (size d =? 0)%nat.

(** [a or {}] for [a] either [None] or a reference to a dictionary: [a]
    itself (the same object) when it is a non-empty dictionary, otherwise
    a new empty dictionary. *)
Definition or_new_dict (a : option loc) : M loc :=
  match a with
  | None => new_dict
  | Some l =>
      d ← read_dict l;
      if dict_truthy d then mret l else new_dict
  end.

(** ** The external schema library *)

(** The classes [_inputs_mapper] dispatches to. *)
Inductive Schema :=
| DAGGenericInput
| DAGStringInput
| DAGIntegerInput
| DAGNumberInput
| DAGBooleanInput
| DAGFolderInput
| DAGFileInput
| DAGPathInput
| DAGJSONObjectInput
| DAGArrayInput.

Definition _inputs_mapper : gmap string Schema :=
  list_to_map
    [ ("GenericInput", DAGGenericInput);
      ("StringInput", DAGStringInput);
      ("IntegerInput", DAGIntegerInput);
      ("NumberInput", DAGNumberInput);
      ("BooleanInput", DAGBooleanInput);
      ("FolderInput", DAGFolderInput);
      ("FileInput", DAGFileInput);
      ("PathInput", DAGPathInput);
      ("DictInput", DAGJSONObjectInput);
      ("ListInput", DAGArrayInput) ].

(** The ten classes, under the names the specification gives the
    variants. *)
Module Variant.
Inductive t :=
| Generic | String | Integer | Number | Boolean
| Dict | List | Folder | File | Path.
End Variant.

(** The class attributes of the dataclass [Inputs]: a short name for each
    of the ten classes. *)
Definition Inputs_attrs : list (string * Variant.t) :=
  [ ("any", Variant.Generic);
    ("str", Variant.String);
    ("int", Variant.Integer);
    ("float", Variant.Number);
    ("bool", Variant.Boolean);
    ("file", Variant.File);
    ("folder", Variant.Folder);
    ("path", Variant.Path);
    ("dict", Variant.Dict);
    ("list", Variant.List) ].

(** [Inputs.<name>] for the names the class body binds. *)
Definition Inputs : gmap string Variant.t := list_to_map Inputs_attrs.

(** ** Descriptors and their conversion *)

Section Inputs.

(** What the code uses without defining it: the alias classes of
    [pollination_dsl.alias.inputs] with their conversion
    [al.to_queenbee().dict()], the enumeration [ItemType] of the schema
    library with its member [ItemType.String]. *)
Context {Alias AliasRecord ItemType : Type}.
Context (alias_to_queenbee_dict : Alias → AliasRecord).
Context (ItemType_String : ItemType).

(** The fields every class inherits from [_InputBase].  [annotations] is
    [None] or a reference to a dictionary object; [alias] is [None] or a
    list. *)
Record _InputBase := {
  annotations : option loc;
  description : option string;
  default : Value;
  default_local : Value;
  spec : Value;
  alias : option (list Alias);
  optional : bool
}.

(** An instance of one of the ten classes.  [ListInput] declares
    [items_type], [FileInput] declares [extensions] and [PathInput]
    inherits it; no other class has either attribute. *)
Inductive Input :=
| GenericInput (b : _InputBase)
| StringInput (b : _InputBase)
| IntegerInput (b : _InputBase)
| NumberInput (b : _InputBase)
| BooleanInput (b : _InputBase)
| DictInput (b : _InputBase)
| ListInput (b : _InputBase) (items_type : ItemType)
| FolderInput (b : _InputBase)
| FileInput (b : _InputBase) (extensions : option (list string))
| PathInput (b : _InputBase) (extensions : option (list string)).

Definition base (self : Input) : _InputBase :=
  match self with
  | GenericInput b | StringInput b | IntegerInput b | NumberInput b
  | BooleanInput b | DictInput b | ListInput b _ | FolderInput b
  | FileInput b _ | PathInput b _ => b
  end.

(** [self.__class__.__name__] *)
Definition class_name (self : Input) : string :=
  match self with
  | GenericInput _ => "GenericInput"
  | StringInput _ => "StringInput"
  | IntegerInput _ => "IntegerInput"
  | NumberInput _ => "NumberInput"
  | BooleanInput _ => "BooleanInput"
  | DictInput _ => "DictInput"
  | ListInput _ _ => "ListInput"
  | FolderInput _ => "FolderInput"
  | FileInput _ _ => "FileInput"
  | PathInput _ _ => "PathInput"
  end.

Definition variant (self : Input) : Variant.t :=
  match self with
  | GenericInput _ => Variant.Generic
  | StringInput _ => Variant.String
  | IntegerInput _ => Variant.Integer
  | NumberInput _ => Variant.Number
  | BooleanInput _ => Variant.Boolean
  | DictInput _ => Variant.Dict
  | ListInput _ _ => Variant.List
  | FolderInput _ => Variant.Folder
  | FileInput _ _ => Variant.File
  | PathInput _ _ => Variant.Path
  end.

(** [getattr(self, 'extensions')] where [hasattr(self, 'extensions')]. *)
Definition extensions_attr (self : Input) : option (option (list string)) :=
  match self with
  | FileInput _ e | PathInput _ e => Some e
  | _ => None
  end.

(** [getattr(self, 'items_type')] where [hasattr(self, 'items_type')]. *)
Definition items_type_attr (self : Input) : option ItemType :=
  match self with
  | ListInput _ t => Some t
  | _ => None
  end.

(** *** Construction *)

(** The keyword arguments of a constructor call; [None] stands for an
    argument that is not supplied (for the fields whose default is
    [None], supplying [None] is the same).  [default] and [default_local]
    are typed fields: [_InputBase_init] and [new] store the values as the
    check of the annotation hands them over, and [instantiate] below
    puts that check in front. *)
Record Kwargs := {
  kw_annotations : option loc;
  kw_description : option string;
  kw_default : Value;
  kw_default_local : Value;
  kw_spec : Value;
  kw_alias : option (list Alias);
  kw_optional : option bool;
  kw_items_type : option ItemType;
  kw_extensions : option (list string)
}.

(** The validator of [alias], run on every construction
    ([always=True]). *)
Definition empty_list_alias (v : option (list Alias)) : option (list Alias) :=
  match v with
  | Some _ => v
  | None => Some []
  end.

Definition _InputBase_init (kw : Kwargs) : _InputBase :=
  {| annotations := kw_annotations kw;
     description := kw_description kw;
     default := kw_default kw;
     default_local := kw_default_local kw;
     spec := kw_spec kw;
     alias := empty_list_alias (kw_alias kw);
     optional := from_option id false (kw_optional kw) |}.

(** Calling one of the ten classes.  Only the class's declared fields
    are stored; [items_type] falls back to [ItemType.String]. *)
Definition new (cls : Variant.t) (kw : Kwargs) : Input :=
  let b := _InputBase_init kw in
  match cls with
  | Variant.Generic => GenericInput b
  | Variant.String => StringInput b
  | Variant.Integer => IntegerInput b
  | Variant.Number => NumberInput b
  | Variant.Boolean => BooleanInput b
  | Variant.Dict => DictInput b
  | Variant.List =>
      ListInput b (from_option id ItemType_String (kw_items_type kw))
  | Variant.Folder => FolderInput b
  | Variant.File => FileInput b (kw_extensions kw)
  | Variant.Path => PathInput b (kw_extensions kw)
  end.

(** *** Derived properties *)

Definition required (self : Input) : bool :=
  if optional (base self) then false
  else if is_not_None (default (base self)) then false
  else true.

(** [_InputBase.is_artifact], overridden by [FolderInput] and inherited
    from it by [FileInput] and [PathInput]. *)
Definition is_artifact (self : Input) : bool :=
  match self with
  | FolderInput _ | FileInput _ _ | PathInput _ _ => true
  | _ => false
  end.

Definition reference_type (self : Input) : string :=
  match self with
  | FolderInput _ => "InputFolderReference"
  | FileInput _ _ => "InputFileReference"
  | PathInput _ _ => "InputPathReference"
  | _ => "InputReference"
  end.

(** *** Conversion *)

(** The dictionary [data] that [to_queenbee] builds, by key.  The keys
    ['extensions'] and ['items_type'] are present or absent; a present
    ['extensions'] holds [None] or a list.  ['annotations'] holds the
    annotations dictionary: a reference of type [A := loc] while the
    record is assembled, the contents of type [A := Dict] once the
    schema class has read it. *)
Record Fields (A : Type) := {
  data_required : bool;
  data_name : string;
  data_default : Value;
  data_description : option string;
  data_annotations : A;
  data_spec : Value;
  data_alias : list AliasRecord;
  data_extensions : option (option (list string));
  data_items_type : option ItemType
}.
#[global] Arguments data_required {A} _.
#[global] Arguments data_name {A} _.
#[global] Arguments data_default {A} _.
#[global] Arguments data_description {A} _.
#[global] Arguments data_annotations {A} _.
#[global] Arguments data_spec {A} _.
#[global] Arguments data_alias {A} _.
#[global] Arguments data_extensions {A} _.
#[global] Arguments data_items_type {A} _.

(** [data['annotations']] replaced by [a]. *)
Definition with_annotations {A B} (data : Fields A) (a : B) : Fields B :=
  {| data_required := data_required data;
     data_name := data_name data;
     data_default := data_default data;
     data_description := data_description data;
     data_annotations := a;
     data_spec := data_spec data;
     data_alias := data_alias data;
     data_extensions := data_extensions data;
     data_items_type := data_items_type data |}.

(** [data['extensions'] = e] *)
Definition set_extensions {A} (data : Fields A)
    (e : option (list string)) : Fields A :=
  {| data_required := data_required data;
     data_name := data_name data;
     data_default := data_default data;
     data_description := data_description data;
     data_annotations := data_annotations data;
     data_spec := data_spec data;
     data_alias := data_alias data;
     data_extensions := Some e;
     data_items_type := data_items_type data |}.

(** [data['items_type'] = t] *)
Definition set_items_type {A} (data : Fields A) (t : ItemType) : Fields A :=
  {| data_required := data_required data;
     data_name := data_name data;
     data_default := data_default data;
     data_description := data_description data;
     data_annotations := data_annotations data;
     data_spec := data_spec data;
     data_alias := data_alias data;
     data_extensions := data_extensions data;
     data_items_type := Some t |}.

(** An instance of a schema class: the class and the fields it holds. *)
Record DAGInput := {
  schema : Schema;
  fields : Fields Dict
}.

(** The records each schema class accepts: the validation of the schema
    library, which this file does not fix. *)
Context (accepts : Schema → Fields Dict → bool).

(** Modelled from the spec: [parse_obj] of the schema classes, which the
    schema library defines.  The spec has it parse and validate the
    assembled record and return an instance of the schema type or fail
    with a validation error, the conversion being a pass-through
    assembler.  The instance holds the fields it was given, with the
    contents the annotations dictionary has at that time. *)
Definition parse_obj (func : Schema) (data : Fields loc) : M DAGInput :=
  d ← read_dict (data_annotations data);
  let obj := with_annotations data d in
  if accepts func obj then mret {| schema := func; fields := obj |}
  else raise ValidationError.

(** [_inputs_mapper[key]] *)
Definition getitem_mapper (key : string) : M Schema :=
  match _inputs_mapper !! key with
  | Some func => mret func
  | None => raise KeyError
  end.

(** [[al.to_queenbee().dict() for al in self.alias]]; iterating over
    [None] is a [TypeError]. *)
Definition alias_to_queenbee (a : option (list Alias)) : M (list AliasRecord) :=
  match a with
  | Some l => mret (alias_to_queenbee_dict <$> l)
  | None => raise TypeError
  end.

Definition to_queenbee (self : Input) (name : string) : M DAGInput :=
  func ← getitem_mapper (class_name self);
  annotations ← or_new_dict (annotations (base self));
  _ ← (if truthy (default_local (base self))
       then setitem annotations "__default_local__" (default_local (base self))
       else mret tt);
  al ← alias_to_queenbee (alias (base self));
  let data :=
    {| data_required := required self;
       data_name := replace "_" "-" name;
       data_default := default (base self);
       data_description := description (base self);
       data_annotations := annotations;
       data_spec := spec (base self);
       data_alias := al;
       data_extensions := None;
       data_items_type := None |} in
  let data :=
    match extensions_attr self with
    | Some e => set_extensions data e
    | None => data
    end in
  let data :=
    match items_type_attr self with
    | Some t => set_items_type data t
    | None => data
    end in
  parse_obj func data.

(** The contents of the descriptor's own [annotations] in a store;
    [None] when the field is [None]. *)
Definition stored_annotations (h : Heap) (self : Input) : option Dict :=
  l ← annotations (base self); h !! l.

(** The descriptor's [annotations] reference, when it has one, is held
    by the store. *)
Definition annotations_allocated (h : Heap) (self : Input) : Prop :=
  ∀ l, annotations (base self) = Some l → is_Some (h !! l).

(** The contents of the dictionary [annotations] after lines 62 to 64,
    from the contents [d] of [self.annotations] ([None] when unset). *)
Definition annotations_sent (d : option Dict) (self : Input) : Dict :=
  let a := from_option id ∅ d in
  if truthy (default_local (base self))
  then <["__default_local__" := default_local (base self)]> a
  else a.

(** The contents of the descriptor's own [annotations] after lines 62 to
    64, from the contents [d] before: a non-empty dictionary is the one
    written to, an empty one is left for a new dictionary. *)
Definition stored_after (d : option Dict) (self : Input) : option Dict :=
  match d with
  | Some d0 =>
      Some (if dict_truthy d0 then annotations_sent (Some d0) self else d0)
  | None => None
  end.

(** Lines 62 to 64: the reference bound to [annotations] and the store
    after the conditional assignment. *)
Definition annotations_step (self : Input) : M loc :=
  annotations ← or_new_dict (annotations (base self));
  _ ← (if truthy (default_local (base self))
       then setitem annotations "__default_local__" (default_local (base self))
       else mret tt);
  mret annotations.

(** The record [to_queenbee] hands to the schema class, with the
    annotations dictionary by contents [a]. *)
Definition assembled (self : Input) (name : string) (al : list Alias)
    (a : Dict) : Fields Dict :=
  {| data_required := required self;
     data_name := replace "_" "-" name;
     data_default := default (base self);
     data_description := description (base self);
     data_annotations := a;
     data_spec := spec (base self);
     data_alias := alias_to_queenbee_dict <$> al;
     data_extensions := extensions_attr self;
     data_items_type := items_type_attr self |}.

(** The schema class of each of the ten classes, as [_inputs_mapper]
    pairs them. *)
Definition schema_of (self : Input) : Schema :=
  match self with
  | GenericInput _ => DAGGenericInput
  | StringInput _ => DAGStringInput
  | IntegerInput _ => DAGIntegerInput
  | NumberInput _ => DAGNumberInput
  | BooleanInput _ => DAGBooleanInput
  | DictInput _ => DAGJSONObjectInput
  | ListInput _ _ => DAGArrayInput
  | FolderInput _ => DAGFolderInput
  | FileInput _ _ => DAGFileInput
  | PathInput _ _ => DAGPathInput
  end.

End Inputs.

Arguments _InputBase : clear implicits.
Arguments Input : clear implicits.
Arguments Kwargs : clear implicits.
Arguments Fields : clear implicits.
Arguments DAGInput : clear implicits.

(** ** Declared value types *)

(** The annotations the classes give [default] and [default_local]:
    [Any], [str], [int], [float], [bool], [Dict], [List]. *)
Inductive PyType := TAny | TStr | TInt | TFloat | TBool | TDict | TList.


(** [isinstance(v, t)]; [bool] is a subclass of [int]. *)
Definition isinstance (v : Value) (t : PyType) : bool :=
  match t, v with
  | TAny, _ => true
  | TStr, VStr _ => true
  | TInt, (VInt _ | VBool _) => true
  | TFloat, VFloat _ => true
  | TBool, VBool _ => true
  | TDict, VDict _ => true
  | TList, VList _ => true
  | _, _ => false
  end.

(** *** The typed fields at construction *)

Section Construction.
Context {Alias ItemType : Type}.
Context (ItemType_String : ItemType).

(** The classes are models of the base-model library, which checks the
    value given for a field against the field's annotation when an object
    is constructed.  Which values it takes for an annotation, and what it
    stores for them, is that library's: [check t v] is [Some v'] when [v]
    is taken for the annotation [t] and stored as [v'], and [None] when
    it is refused. *)
Context (check : PyType → Value → option Value).



End Construction.


(** Modelled from the spec: the value type each schema class declares for
    [default], which the schema library defines.  The spec pairs the
    schema types one to one with the variants and has each check the
    value type of [default]; the type is taken to be the variant's. *)
Definition schema_type (func : Schema) : PyType :=
  match func with
  | DAGGenericInput => TAny
  | DAGStringInput => TStr
  | DAGIntegerInput => TInt
  | DAGNumberInput => TFloat
  | DAGBooleanInput => TBool
  | DAGFolderInput | DAGFileInput | DAGPathInput => TStr
  | DAGJSONObjectInput => TDict
  | DAGArrayInput => TList
  end.

(** Modelled from the spec: the validation of the schema classes, which
    the schema library defines.  A record is refused when its [default]
    is set and is not of the class's value type; nothing is coerced. *)
Definition schema_accepts {AliasRecord ItemType : Type}
    (func : Schema) (data : Fields AliasRecord ItemType Dict) : bool :=
  negb (is_not_None (data_default data))
  || isinstance (data_default data) (schema_type func).

(** ** Example descriptors *)

(** In the examples an alias, its converted form and an item type are
    all written as strings. *)
Abbreviation ExInput := (Input string string) (only parsing).

(** One dictionary object, [{'unit': 'm'}]. *)
Definition ex_heap : Heap := {[ 1%positive := {[ "unit" := VStr "m" ]} ]}.

(** One dictionary object, [{'__default_local__': 'x'}]. *)
Definition ex_reserved_heap : Heap :=
  {[ 1%positive := {[ "__default_local__" := VStr "x" ]} ]}.

(** [StringInput(annotations=d, description='a name', default_local='x')]
    for the dictionary object [d] at reference 1. *)
Definition ex_string : ExInput :=
  StringInput
    {| annotations := Some 1%positive; description := Some "a name";
       default := VNone; default_local := VStr "x"; spec := VNone;
       alias := Some []; optional := false |}.

(** [StringInput(annotations=d)] *)
Definition ex_string_unset : ExInput :=
  StringInput
    {| annotations := Some 1%positive; description := None;
       default := VNone; default_local := VNone; spec := VNone;
       alias := Some []; optional := false |}.

(** [BooleanInput(annotations=d, default=False, default_local=False)] *)
Definition ex_boolean : ExInput :=
  BooleanInput
    {| annotations := Some 1%positive; description := None;
       default := VBool false; default_local := VBool false; spec := VNone;
       alias := Some []; optional := false |}.


(** [ListInput(items_type='Integer', alias=['grasshopper'])] *)
Definition ex_list : ExInput :=
  ListInput
    {| annotations := None; description := None;
       default := VNone; default_local := VNone; spec := VNone;
       alias := Some ["grasshopper"]; optional := false |}
    "Integer".

(** [FileInput(extensions=['epw'], optional=True)] *)
Definition ex_file : ExInput :=
  FileInput
    {| annotations := None; description := None;
       default := VNone; default_local := VNone; spec := VNone;
       alias := Some []; optional := true |}
    (Some ["epw"]).

(** [ex_string] after the assignment [d.alias = None]. *)
Definition ex_alias_None : ExInput :=
  StringInput
    {| annotations := Some 1%positive; description := Some "a name";
       default := VNone; default_local := VStr "x"; spec := VNone;
       alias := None; optional := false |}.

(** The arguments of
    [FileInput(description='weather file', extensions=['epw'])]. *)
Definition ex_kwargs : Kwargs string string :=
  {| kw_annotations := None; kw_description := Some "weather file";
     kw_default := VNone; kw_default_local := VNone; kw_spec := VNone;
     kw_alias := None; kw_optional := None; kw_items_type := None;
     kw_extensions := Some ["epw"] |}.



(** ** The store monad *)

Section Monad.
Context {A B : Type}.

Lemma bind_Ok (m : M A) (f : A → M B) h h' b :
  (m ≫= f) h = (h', Ok b) →
  ∃ h1 a, m h = (h1, Ok a) ∧ f a h1 = (h', Ok b).
Proof.
  unfold mbind, M_bind. destruct (m h) as [h1 [a|e]]; [eauto | discriminate].
Qed.

Lemma bind_run (m : M A) (f : A → M B) h h1 a :
  m h = (h1, Ok a) → (m ≫= f) h = f a h1.
Proof. unfold mbind, M_bind. by intros ->. Qed.

Lemma bind_Raise (m : M A) (f : A → M B) h h1 e :
  m h = (h1, Raise e) → (m ≫= f) h = (h1, Raise e).
Proof. unfold mbind, M_bind. by intros ->. Qed.
End Monad.

Lemma dict_truthy_false (d : gmap string Value) : dict_truthy d = false → d = ∅.
Proof.
  unfold dict_truthy. intros H%negb_false_iff%Nat.eqb_eq.
  by apply map_size_empty_iff.
Qed.

Lemma new_dict_fresh (h : gmap positive (gmap string Value)) :
  h !! fresh (dom h) = None.
Proof. apply not_elem_of_dom, is_fresh. Qed.

(** What [a or {}] evaluates to: a reference [l] whose dictionary holds
    what [a] held (nothing, for [None]).  Either [a] is a non-empty
    dictionary, [l] is [a] and the store is unchanged, or [a] is [None] or
    empty and [l] is a new object. *)
Lemma or_new_dict_Ok a h h1 l :
  or_new_dict a h = (h1, Ok l) →
  h1 !! l = Some (from_option id ∅ (a ≫= (h !!.)))
  ∧ (∀ l0, a = Some l0 → is_Some (h !! l0))
  ∧ ((h1 = h ∧ a = Some l ∧ ∃ d, h !! l = Some d ∧ dict_truthy d = true)
     ∨ (h1 = <[l := ∅]> h ∧ h !! l = None
        ∧ from_option id ∅ (a ≫= (h !!.)) = ∅)).
Proof.
  destruct a as [l0|]; simpl.
  - intros (h2 & d & Hr & Hk)%bind_Ok. unfold read_dict in Hr.
    destruct (h !! l0) as [d0|] eqn:Hl0; [|discriminate].
    injection Hr as <- <-. simpl.
    assert (∀ l1, Some l0 = Some l1 → is_Some (h !! l1)) as Hwf
      by (intros l1 [= <-]; eauto).
    destruct (dict_truthy d0) eqn:Hd.
    + injection Hk as <- <-. split; [done|]. split; [done|]. left. eauto.
    + apply dict_truthy_false in Hd as ->. unfold new_dict in Hk.
      injection Hk as <- <-. split; [by rewrite lookup_insert_eq|].
      split; [done|]. right. split; [done|]. split; [apply new_dict_fresh | done].
  - unfold new_dict. intros [= <- <-]. split; [by rewrite lookup_insert_eq|].
    split; [done|]. right. split; [done|]. split; [apply new_dict_fresh | done].
Qed.

(** [a or {}] returns whenever the reference, if there is one, is held by
    the store. *)
Lemma or_new_dict_returns a h :
  (∀ l, a = Some l → is_Some (h !! l)) →
  ∃ h1 l, or_new_dict a h = (h1, Ok l).
Proof.
  intros Hwf. destruct a as [l0|]; simpl; [|unfold new_dict; eauto].
  destruct (Hwf l0 eq_refl) as [d Hd].
  unfold mbind, M_bind, read_dict. rewrite Hd.
  destruct (dict_truthy d); [unfold mret, M_ret | unfold new_dict]; eauto.
Qed.

(** ** How [to_queenbee] runs *)

Section Conversion.
Context {Alias AliasRecord ItemType : Type}.
Context (f : Alias → AliasRecord).
Context (accepts : Schema → Fields AliasRecord ItemType Dict → bool).
Implicit Types (self : Input Alias ItemType) (name : string).
Implicit Types (h : gmap positive (gmap string Value)).

Lemma getitem_mapper_class_name self h :
  getitem_mapper (class_name self) h = (h, Ok (schema_of self)).
Proof. by destruct self. Qed.

Lemma annotations_step_Ok self h h2 l :
  annotations_step self h = (h2, Ok l) →
  h2 !! l = Some (annotations_sent (stored_annotations h self) self).
Proof.
  unfold annotations_step, annotations_sent, stored_annotations.
  intros (h1 & l1 & [Hl1 _]%or_new_dict_Ok & Hk)%bind_Ok.
  apply bind_Ok in Hk as (h3 & [] & Hset & [= <- <-]).
  destruct (truthy _).
  - unfold setitem in Hset. rewrite Hl1 in Hset. injection Hset as <-.
    by rewrite lookup_insert_eq.
  - by injection Hset as <-.
Qed.

Lemma annotations_step_returns self h :
  annotations_allocated h self →
  ∃ h2 l, annotations_step self h = (h2, Ok l).
Proof.
  intros (h1 & l & Hor)%or_new_dict_returns. unfold annotations_step.
  rewrite (bind_run _ _ _ _ _ Hor).
  apply or_new_dict_Ok in Hor as [Hl _].
  destruct (truthy _).
  - unfold mbind at 1, M_bind, setitem. rewrite Hl. eauto.
  - eauto.
Qed.

Lemma to_queenbee_unfold self name h :
  to_queenbee f accepts self name h =
  (func ← getitem_mapper (class_name self);
   annotations ← annotations_step self;
   al ← alias_to_queenbee f (alias (base self));
   parse_obj accepts func
     (with_annotations (assembled f self name
        (from_option id [] (alias (base self))) ∅) annotations)) h.
Proof.
  unfold to_queenbee, annotations_step, assembled, mbind, M_bind.
  destruct (getitem_mapper _ h) as [h0 [func|e]]; [|done].
  destruct (or_new_dict _ h0) as [h1 [l|e]]; [|done].
  destruct (truthy _); [destruct (setitem _ _ _ h1) as [h2 [[]|e]]|];
    simpl; try done.
  all: by destruct self; destruct (alias _).
Qed.

(** Every record [to_queenbee] returns: the class [_inputs_mapper] gives,
    holding the assembled fields. *)
Lemma to_queenbee_Ok self name h h' obj :
  to_queenbee f accepts self name h = (h', Ok obj) →
  ∃ al, alias (base self) = Some al
    ∧ schema obj = schema_of self
    ∧ fields obj =
        assembled f self name al
          (annotations_sent (stored_annotations h self) self).
Proof.
  rewrite to_queenbee_unfold, (bind_run _ _ _ _ _ (getitem_mapper_class_name _ _)).
  intros (h2 & l & Hl%annotations_step_Ok & Hk)%bind_Ok.
  destruct (alias (base self)) as [al|]; [|discriminate]. exists al.
  simpl in Hk. unfold parse_obj, mbind, M_bind, read_dict in Hk; simpl in Hk.
  rewrite Hl in Hk. destruct (accepts _ _); [|discriminate].
  by injection Hk as <- <-.
Qed.

(** [to_queenbee] returns or raises [ValidationError], as the schema
    class decides, on every descriptor whose [alias] is a list and
    whose [annotations] reference is held by the store. *)
Lemma to_queenbee_run self name h al :
  annotations_allocated h self →
  alias (base self) = Some al →
  ∃ h', to_queenbee f accepts self name h =
    (h', let data := assembled f self name al
           (annotations_sent (stored_annotations h self) self) in
         if accepts (schema_of self) data
         then Ok {| schema := schema_of self; fields := data |}
         else Raise ValidationError).
Proof.
  intros (h2 & l & Hstep)%annotations_step_returns Hal.
  rewrite to_queenbee_unfold, (bind_run _ _ _ _ _ (getitem_mapper_class_name _ _)).
  rewrite (bind_run _ _ _ _ _ Hstep), Hal. exists h2.
  apply annotations_step_Ok in Hstep.
  simpl. unfold parse_obj, mbind, M_bind, read_dict; simpl. rewrite Hstep.
  by destruct (accepts _ _).
Qed.
End Conversion.

(** ** Properties of the descriptors *)

Lemma replace_length old new s :
  String.length (replace old new s) = String.length s.
Proof. induction s as [|c s IH]; simpl; congruence. Qed.

Lemma replace_get old new s i :
  String.get i (replace old new s) =
  (λ c, if Ascii.eqb c old then new else c) <$> String.get i s.
Proof.
  revert i. induction s as [|c s IH]; intros [|i]; simpl; auto.
Qed.

Section Claims.
Context {Alias AliasRecord ItemType : Type}.
Context (f : Alias → AliasRecord).
Context (ItemType_String : ItemType).
Context (accepts : Schema → Fields AliasRecord ItemType Dict → bool).
Implicit Types (self : Input Alias ItemType) (name : string).
Implicit Types (kw : Kwargs Alias ItemType) (cls : Variant.t).
Implicit Types (h : gmap positive (gmap string Value)).
Implicit Types (obj : DAGInput AliasRecord ItemType).

Lemma base_new cls kw :
  base (new ItemType_String cls kw) = _InputBase_init kw.
Proof. by destruct cls. Qed.

Lemma variant_new cls kw : variant (new ItemType_String cls kw) = cls.
Proof. by destruct cls. Qed.

(** C1. For a descriptor of any of the ten classes, [required] is false
    when [optional] is true, whatever [default] is; it is false when
    [optional] is false and [default] is not [None], be it [False] or
    [0]; and it is true exactly when [optional] is false and [default]
    is [None]. *)
Theorem required_spec self :
  (optional (base self) = true → required self = false)
  ∧ (optional (base self) = false → default (base self) ≠ VNone →
     required self = false)
  ∧ (required self = true ↔
     optional (base self) = false ∧ default (base self) = VNone).
Proof.
  unfold required.
  destruct (optional (base self)), (default (base self)); simpl;
    intuition congruence.
Qed.

(** C6. After construction of any of the ten classes [alias] is a list,
    never [None]; it is the empty list when no alias, or [None], was
    given. *)
Theorem alias_never_absent cls kw :
  (∃ l, alias (base (new ItemType_String cls kw)) = Some l)
  ∧ (kw_alias kw = None →
     alias (base (new ItemType_String cls kw)) = Some []).
Proof.
  rewrite base_new. simpl. destruct (kw_alias kw) as [l|]; simpl.
  - split; [by exists l | done].
  - split; [by exists [] | done].
Qed.

(** C7. [is_artifact] is true exactly for the Folder, File and Path
    classes and false for the seven others, whatever the fields hold. *)
Theorem is_artifact_spec self :
  (is_artifact self = true ↔
     variant self = Variant.Folder ∨ variant self = Variant.File
     ∨ variant self = Variant.Path)
  ∧ (is_artifact self = false ↔
     variant self = Variant.Generic ∨ variant self = Variant.String
     ∨ variant self = Variant.Integer ∨ variant self = Variant.Number
     ∨ variant self = Variant.Boolean ∨ variant self = Variant.Dict
     ∨ variant self = Variant.List).
Proof. destruct self; simpl; intuition congruence. Qed.

(** C4. Every record [to_queenbee(name)] returns has as its name [name]
    with each underscore replaced by a hyphen: the same length, a
    hyphen wherever [name] has an underscore, and [name]'s own
    character everywhere else. *)
Theorem to_queenbee_name self name h h' obj :
  to_queenbee f accepts self name h = (h', Ok obj) →
  data_name (fields obj) = replace "_" "-" name
  ∧ String.length (data_name (fields obj)) = String.length name
  ∧ ∀ i, String.get i (data_name (fields obj)) =
         (λ c, if Ascii.eqb c "_" then "-"%char else c) <$> String.get i name.
Proof.
  intros (al & _ & _ & ->)%to_queenbee_Ok. simpl.
  split; [done|]. split; [apply replace_length | intros i; apply replace_get].
Qed.

(** C8. Every record [to_queenbee] returns for a [ListInput] holds
    [items_type], equal to the descriptor's; a [ListInput] constructed
    without [items_type] has [ItemType.String]; and the record returned
    for a descriptor of any other class holds no [items_type]. *)
Theorem to_queenbee_items_type self name h h' obj :
  to_queenbee f accepts self name h = (h', Ok obj) →
  (∀ b t, self = ListInput b t → data_items_type (fields obj) = Some t)
  ∧ (∀ kw, kw_items_type kw = None →
       new ItemType_String Variant.List kw =
       ListInput (_InputBase_init kw) ItemType_String)
  ∧ (variant self ≠ Variant.List → data_items_type (fields obj) = None).
Proof.
  intros (al & _ & _ & ->)%to_queenbee_Ok. simpl. split; [|split].
  - by intros b t ->.
  - by intros kw; simpl; intros ->.
  - by destruct self.
Qed.

(** C9. Every record [to_queenbee] returns for a [FileInput] or a
    [PathInput] holds [extensions], equal to the descriptor's (so also
    when it is set); the record returned for a descriptor of any of the
    eight other classes holds no [extensions]. *)
Theorem to_queenbee_extensions self name h h' obj :
  to_queenbee f accepts self name h = (h', Ok obj) →
  (∀ b e, self = FileInput b e ∨ self = PathInput b e →
     data_extensions (fields obj) = Some e)
  ∧ (variant self ≠ Variant.File → variant self ≠ Variant.Path →
     data_extensions (fields obj) = None).
Proof.
  intros (al & _ & _ & ->)%to_queenbee_Ok. simpl. split.
  - by intros b e [-> | ->].
  - by destruct self.
Qed.

(** C3, as the code has it. Every record [to_queenbee] returns for a
    descriptor whose [default_local] is truthy binds [__default_local__]
    to that value in its annotations; for a descriptor whose
    [default_local] is [None] the record's annotations bind the key
    exactly as the descriptor's own annotations do, so the key is absent
    unless the descriptor's annotations hold it. *)
Theorem to_queenbee_default_local self name h h' obj :
  to_queenbee f accepts self name h = (h', Ok obj) →
  (truthy (default_local (base self)) = true →
     data_annotations (fields obj) !! "__default_local__" =
     Some (default_local (base self)))
  ∧ (default_local (base self) = VNone →
     data_annotations (fields obj) !! "__default_local__" =
     stored_annotations h self ≫= (.!! "__default_local__")).
Proof.
  intros (al & _ & _ & ->)%to_queenbee_Ok. simpl. unfold annotations_sent.
  split.
  - intros ->. apply lookup_insert_eq.
  - intros ->. simpl. by destruct (stored_annotations h self).
Qed.

(** C10, as the code has it. The test is on the truth value of
    [default_local]: for a descriptor whose [default_local] is falsy
    ([False], [0], [0.0], an empty string, list or dictionary, or
    [None]) nothing is added, the annotations of every record
    [to_queenbee] returns are the descriptor's own (empty when it has
    none), and so the key [__default_local__] is absent unless the
    descriptor's annotations hold it.  [required] tests presence
    instead: the same value as [default] of a descriptor that is not
    optional makes it not required. *)
Theorem to_queenbee_falsy_default_local self name h h' obj :
  truthy (default_local (base self)) = false →
  to_queenbee f accepts self name h = (h', Ok obj) →
  data_annotations (fields obj) = from_option id ∅ (stored_annotations h self)
  ∧ (data_annotations (fields obj) !! "__default_local__" = None ↔
     stored_annotations h self ≫= (.!! "__default_local__") = None)
  ∧ (default_local (base self) ≠ VNone →
     ∀ self', optional (base self') = false →
       default (base self') = default_local (base self) →
       required self' = false).
Proof.
  intros Hfalsy (al & _ & _ & ->)%to_queenbee_Ok. simpl.
  unfold annotations_sent. rewrite Hfalsy. split; [done|]. split.
  - by destruct (stored_annotations h self).
  - intros Hset self' Hopt Hdef. unfold required. rewrite Hopt, Hdef.
    by destruct (default_local (base self)).
Qed.
End Claims.

(** ** Where a default is validated *)

Section Validation.
Context {Alias AliasRecord ItemType : Type}.
Context (f : Alias → AliasRecord).
Context (ItemType_String : ItemType).
Context (check : PyType → Value → option Value).
Context (accepts : Schema → Fields AliasRecord ItemType Dict → bool).
Implicit Types (self : Input Alias ItemType) (name : string).
Implicit Types (kw : Kwargs Alias ItemType) (cls : Variant.t).
Implicit Types (h : gmap positive (gmap string Value)).


End Validation.

(** ** What [to_queenbee] does to the store *)

Lemma dict_truthy_empty : dict_truthy (∅ : gmap string Value) = false.
Proof. reflexivity. Qed.

Section Store.
Context {Alias AliasRecord ItemType : Type}.
Context (f : Alias → AliasRecord).
Context (accepts : Schema → Fields AliasRecord ItemType Dict → bool).
Implicit Types (self : Input Alias ItemType) (name : string).
Implicit Types (h : gmap positive (gmap string Value)).
Implicit Types (obj : DAGInput AliasRecord ItemType).

Lemma annotations_sent_falsy self d :
  truthy (default_local (base self)) = false →
  annotations_sent d self = from_option id ∅ d.
Proof. unfold annotations_sent. by intros ->. Qed.

Lemma annotations_sent_twice self d :
  annotations_sent (Some (annotations_sent d self)) self = annotations_sent d self.
Proof.
  unfold annotations_sent. destruct (truthy _); simpl; [|done].
  apply insert_insert_eq.
Qed.

(** Lines 62 to 64 on the store: the descriptor's own dictionary ends as
    [stored_after] says, and no other dictionary of the store changes. *)
Lemma annotations_step_store self h h2 l :
  annotations_step self h = (h2, Ok l) →
  annotations_allocated h self
  ∧ stored_annotations h2 self = stored_after (stored_annotations h self) self
  ∧ (∀ l' d, annotations (base self) ≠ Some l' →
       h !! l' = Some d → h2 !! l' = Some d).
Proof.
  unfold annotations_step, annotations_allocated, stored_annotations.
  intros (h1 & l1 & (Hl1 & Hwf & Hcase)%or_new_dict_Ok & Hk)%bind_Ok.
  apply bind_Ok in Hk as (h3 & [] & Hset & [= <- <-]).
  split; [done|].
  assert (∃ d1, h3 = <[l1 := d1]> h1 ∨ h3 = h1) as [d1 Hh3].
  { destruct (truthy _).
    - unfold setitem in Hset. rewrite Hl1 in Hset. injection Hset as <-. eauto.
    - injection Hset as <-. exists ∅. by right. }
  destruct Hcase as [(-> & Ha & d & Hd & Htr) | (-> & Hfresh & Hempty)].
  - rewrite Ha in *. simpl in *. rewrite Hd in *. simpl in *. split.
    + unfold annotations_sent. rewrite Htr. simpl.
      destruct (truthy _).
      * unfold setitem in Hset. rewrite Hd in Hset. injection Hset as <-.
        by rewrite lookup_insert_eq.
      * by injection Hset as <-.
    + intros l' d' Hne Hl'. destruct Hh3 as [-> | ->]; [|done].
      rewrite lookup_insert_ne; [done | congruence].
  - assert (∀ l' d', h !! l' = Some d' → h3 !! l' = Some d') as Hframe.
    { intros l' d' Hl'. assert (l1 ≠ l') by congruence.
      destruct Hh3 as [-> | ->]; by rewrite !lookup_insert_ne. }
    split; [|by eauto].
    destruct (annotations (base self)) as [l0|]; simpl in *; [|done].
    destruct (Hwf l0 eq_refl) as [d0 Hd0]. rewrite Hd0 in *. simpl in *.
    subst d0. by rewrite (Hframe _ _ Hd0), dict_truthy_empty.
Qed.

(** After lines 62 to 64 [to_queenbee] leaves the store as it is. *)
Lemma to_queenbee_store self name h :
  (to_queenbee f accepts self name h).1 = (annotations_step self h).1.
Proof.
  rewrite to_queenbee_unfold,
    (bind_run _ _ _ _ _ (getitem_mapper_class_name _ _)).
  unfold mbind at 1, M_bind.
  destruct (annotations_step self h) as [h2 [l|e]] eqn:Hstep; [|done].
  apply annotations_step_Ok in Hstep.
  destruct (alias (base self)); simpl; [|done].
  unfold parse_obj, mbind, M_bind, read_dict. simpl. rewrite Hstep.
  by destruct (accepts _ _).
Qed.

Lemma annotations_step_Raise self h h2 e :
  annotations_step self h = (h2, Raise e) → h2 = h.
Proof.
  unfold annotations_step, mbind, M_bind.
  destruct (or_new_dict _ h) as [h1 [l1|e1]] eqn:Hor.
  - apply or_new_dict_Ok in Hor as (Hl1 & _ & _).
    destruct (truthy _); [|done]. unfold setitem. by rewrite Hl1.
  - intros [= <- <-]. destruct (annotations (base self)) as [l0|]; [|done].
    simpl in Hor. unfold mbind, M_bind, read_dict in Hor.
    destruct (h !! l0) as [d0|]; [|by injection Hor].
    by destruct (dict_truthy d0).
Qed.

Lemma stored_after_allocated self h h2 :
  annotations_allocated h self →
  stored_annotations h2 self = stored_after (stored_annotations h self) self →
  annotations_allocated h2 self.
Proof.
  unfold annotations_allocated, stored_annotations. intros Hwf Hst l Hl.
  rewrite Hl in *. simpl in *. destruct (Hwf l eq_refl) as [d Hd].
  rewrite Hd in Hst. simpl in Hst. eauto.
Qed.

Lemma annotations_sent_stored_after self d :
  annotations_sent (stored_after d self) self = annotations_sent d self.
Proof.
  destruct d as [d0|]; [simpl|done].
  destruct (dict_truthy d0); [apply annotations_sent_twice | done].
Qed.

(** X1. The write goes through to the descriptor.  When the descriptor's
    annotations are a non-empty dictionary and [default_local] is truthy,
    [to_queenbee] leaves that dictionary with [__default_local__] bound to
    [default_local], whether it returns or raises. *)
Theorem to_queenbee_writes_through self name h l d :
  annotations (base self) = Some l →
  h !! l = Some d →
  dict_truthy d = true →
  truthy (default_local (base self)) = true →
  stored_annotations (to_queenbee f accepts self name h).1 self =
  Some (<["__default_local__" := default_local (base self)]> d).
Proof.
  intros Ha Hd Hne Htr. rewrite to_queenbee_store.
  assert (annotations_allocated h self) as Hwf
    by (intros l' Hl'; rewrite Ha in Hl'; injection Hl' as <-; eauto).
  destruct (annotations_step_returns self h Hwf) as (h2 & l2 & Hstep).
  rewrite Hstep. simpl.
  apply annotations_step_store in Hstep as (_ & -> & _).
  unfold stored_annotations. rewrite Ha. simpl. rewrite Hd. simpl.
  unfold annotations_sent. by rewrite Hne, Htr.
Qed.


(** X3. The descriptor's own annotations are as they were after
    [to_queenbee] when [default_local] is falsy, and when the annotations
    are unset or empty. *)
Theorem to_queenbee_leaves_annotations self name h :
  truthy (default_local (base self)) = false
  ∨ from_option id ∅ (stored_annotations h self) = ∅ →
  stored_annotations (to_queenbee f accepts self name h).1 self =
  stored_annotations h self.
Proof.
  intros Hcond. rewrite to_queenbee_store.
  destruct (annotations_step self h) as [h2 [l2|e]] eqn:Hstep; simpl.
  - apply annotations_step_store in Hstep as (_ & -> & _).
    destruct (stored_annotations h self) as [d0|]; [simpl|done].
    destruct (dict_truthy d0) eqn:Hd0; [|done]. f_equal.
    destruct Hcond as [Hfalsy | Hempty].
    + by rewrite annotations_sent_falsy.
    + simpl in Hempty. subst d0. by rewrite dict_truthy_empty in Hd0.
  - by apply annotations_step_Raise in Hstep as ->.
Qed.

(** X4. A second call returns what the first returned: when
    [to_queenbee(name)] returns a record, calling it again on the store
    it left returns an equal record. *)
Theorem to_queenbee_repeat self name h h1 obj :
  to_queenbee f accepts self name h = (h1, Ok obj) →
  ∃ h2, to_queenbee f accepts self name h1 = (h2, Ok obj).
Proof.
  intros Hrun.
  pose proof (to_queenbee_store self name h) as Hstore.
  rewrite Hrun in Hstore. simpl in Hstore.
  destruct (to_queenbee_Ok _ _ _ _ _ _ _ Hrun) as (al & Hal & Hschema & Hfields).
  destruct (annotations_step self h) as [h2 [l2|e]] eqn:Hstep.
  - simpl in Hstore. subst h2.
    apply annotations_step_store in Hstep as (Hwf & Hst & _).
    pose proof (stored_after_allocated _ _ _ Hwf Hst) as Hwf1.
    destruct (to_queenbee_run f accepts self name h al Hwf Hal) as [h' Hrun0].
    destruct (to_queenbee_run f accepts self name h1 al Hwf1 Hal) as [h2 Hrun1].
    exists h2. rewrite Hrun1. rewrite Hrun in Hrun0. cbv zeta in *.
    rewrite Hst, annotations_sent_stored_after.
    destruct (accepts _ _); [|discriminate]. by injection Hrun0 as _ ->.
  - exfalso. rewrite to_queenbee_unfold,
      (bind_run _ _ _ _ _ (getitem_mapper_class_name _ _)),
      (bind_Raise _ _ _ _ _ Hstep) in Hrun. discriminate.
Qed.
End Store.

(** ** Dispatch, failures and the shape of the record *)

Lemma replace_replace old new s :
  old ≠ new → replace old new (replace old new s) = replace old new s.
Proof.
  intros Hne. induction s as [|c s IH]; simpl; [done|]. rewrite IH. f_equal.
  destruct (Ascii.eqb c old) eqn:Hc; [|by rewrite Hc].
  destruct (Ascii.eqb new old) eqn:Hn; [|done].
  apply Ascii.eqb_eq in Hn. congruence.
Qed.

Lemma replace_get_ne old new s i :
  old ≠ new → String.get i (replace old new s) ≠ Some old.
Proof.
  intros Hne. rewrite replace_get.
  destruct (String.get i s) as [c|]; simpl; [|done].
  destruct (Ascii.eqb c old) eqn:Hc; [congruence|].
  apply Ascii.eqb_neq in Hc. congruence.
Qed.

Section Dispatch.
Context {Alias AliasRecord ItemType : Type}.
Context (f : Alias → AliasRecord).
Context (ItemType_String : ItemType).
Context (accepts : Schema → Fields AliasRecord ItemType Dict → bool).
Implicit Types (self : Input Alias ItemType) (name : string).
Implicit Types (kw : Kwargs Alias ItemType) (cls : Variant.t).
Implicit Types (h : gmap positive (gmap string Value)).
Implicit Types (obj : DAGInput AliasRecord ItemType).

Lemma annotations_step_Raise_error self h h2 e :
  annotations_step self h = (h2, Raise e) → e = DanglingReference.
Proof.
  unfold annotations_step, mbind, M_bind.
  destruct (or_new_dict _ h) as [h1 [l1|e1]] eqn:Hor.
  - apply or_new_dict_Ok in Hor as (Hl1 & _ & _).
    destruct (truthy _); [|done]. unfold setitem. by rewrite Hl1.
  - intros [= <- <-]. destruct (annotations (base self)) as [l0|]; [|done].
    simpl in Hor. unfold mbind, M_bind, read_dict in Hor.
    destruct (h !! l0) as [d0|]; [|by injection Hor].
    by destruct (dict_truthy d0).
Qed.

Lemma schema_of_inj self1 self2 :
  schema_of self1 = schema_of self2 ↔ variant self1 = variant self2.
Proof. destruct self1, self2; simpl; split; congruence. Qed.

(** X5. [reference_type] is ['InputReference'] exactly on the classes
    that are not artifacts; on the three artifact classes it names the
    class, each its own reference; and the artifact classes are the ones
    [_inputs_mapper] sends to the folder, file and path schema classes. *)
Theorem reference_type_spec self :
  (reference_type self = "InputReference" ↔ is_artifact self = false)
  ∧ (reference_type self = "InputFolderReference" ↔
     variant self = Variant.Folder)
  ∧ (reference_type self = "InputFileReference" ↔ variant self = Variant.File)
  ∧ (reference_type self = "InputPathReference" ↔ variant self = Variant.Path)
  ∧ (is_artifact self = true ↔
     _inputs_mapper !! class_name self = Some DAGFolderInput
     ∨ _inputs_mapper !! class_name self = Some DAGFileInput
     ∨ _inputs_mapper !! class_name self = Some DAGPathInput).
Proof.
  destruct self; vm_compute; repeat split; intros; try done;
    try (by left); try (by right; left); try (by right; right);
    repeat match goal with H : _ ∨ _ |- _ => destruct H end; done.
Qed.

(** X6. [to_queenbee] never raises [KeyError]: each of the ten classes
    has its entry in [_inputs_mapper]. *)
Theorem to_queenbee_never_KeyError self name h :
  (to_queenbee f accepts self name h).2 ≠ Raise KeyError.
Proof.
  rewrite to_queenbee_unfold,
    (bind_run _ _ _ _ _ (getitem_mapper_class_name _ _)).
  unfold mbind at 1, M_bind.
  destruct (annotations_step self h) as [h2 [l|e]] eqn:Hstep.
  - apply annotations_step_Ok in Hstep.
    destruct (alias (base self)); simpl; [|done].
    unfold parse_obj, mbind, M_bind, read_dict. simpl. rewrite Hstep.
    by destruct (accepts _ _).
  - by apply annotations_step_Raise_error in Hstep as ->.
Qed.

(** X7. On a descriptor whose [alias] is [None], as an assignment after
    construction can leave it, [to_queenbee] raises [TypeError]: the
    schema class is not reached. *)
Theorem to_queenbee_alias_None self name h :
  annotations_allocated h self →
  alias (base self) = None →
  ∃ h', to_queenbee f accepts self name h = (h', Raise TypeError).
Proof.
  intros (h2 & l & Hstep)%annotations_step_returns Hal.
  rewrite to_queenbee_unfold,
    (bind_run _ _ _ _ _ (getitem_mapper_class_name _ _)),
    (bind_run _ _ _ _ _ Hstep), Hal. by exists h2.
Qed.

(** X8. A descriptor as the constructor leaves it converts without
    [TypeError]: [to_queenbee] returns a record or raises the schema
    class's [ValidationError], and the record's aliases are the converted
    aliases given at construction, none when none was given. *)
Theorem to_queenbee_new cls kw name h :
  annotations_allocated h (new ItemType_String cls kw) →
  ∃ h' r,
    to_queenbee f accepts (new ItemType_String cls kw) name h = (h', r)
    ∧ (r = Raise ValidationError
       ∨ ∃ obj, r = Ok obj
           ∧ data_alias (fields obj) = f <$> from_option id [] (kw_alias kw)).
Proof.
  intros Hwf.
  assert (alias (base (new ItemType_String cls kw)) =
          Some (from_option id [] (kw_alias kw))) as Hal.
  { destruct cls; simpl; by destruct (kw_alias kw). }
  destruct (to_queenbee_run f accepts _ name h _ Hwf Hal) as [h' Hrun].
  eexists h', _. split; [exact Hrun|]. cbv zeta.
  destruct (accepts _ _); [right | by left]. eauto.
Qed.

(** X9. What a returned record holds fits its schema class: a record
    with a default is not required; it holds [extensions] exactly when it
    is of the file or path schema class, and [items_type] exactly when it
    is of the array schema class. *)
Theorem to_queenbee_record_shape self name h h' obj :
  to_queenbee f accepts self name h = (h', Ok obj) →
  (data_default (fields obj) ≠ VNone → data_required (fields obj) = false)
  ∧ (is_Some (data_extensions (fields obj)) ↔
     schema obj = DAGFileInput ∨ schema obj = DAGPathInput)
  ∧ (is_Some (data_items_type (fields obj)) ↔ schema obj = DAGArrayInput).
Proof.
  intros (al & _ & -> & ->)%to_queenbee_Ok. simpl. split; [|split].
  - unfold required. destruct (optional _), (default _); done.
  - destruct self; simpl; rewrite <-not_eq_None_Some; intuition congruence.
  - destruct self; simpl; rewrite <-not_eq_None_Some; intuition congruence.
Qed.

(** X10. The annotations the descriptor holds all reach the record, and
    nothing but [__default_local__] is added: under every other key the
    returned record binds what the descriptor's own annotations bind. *)
Theorem to_queenbee_keeps_annotations self name h h' obj k :
  to_queenbee f accepts self name h = (h', Ok obj) →
  k ≠ "__default_local__" →
  data_annotations (fields obj) !! k = stored_annotations h self ≫= (.!! k).
Proof.
  intros (al & _ & _ & ->)%to_queenbee_Ok Hk. simpl. unfold annotations_sent.
  destruct (truthy _); [rewrite lookup_insert_ne by done|];
    by destruct (stored_annotations h self).
Qed.

(** X11. The schema class of the returned record tells the class of the
    descriptor: two conversions return records of one schema class
    exactly when the descriptors are of one class. *)
Theorem to_queenbee_schema_one_to_one self1 self2 name1 name2 h1 h2 h1' h2' obj1 obj2 :
  to_queenbee f accepts self1 name1 h1 = (h1', Ok obj1) →
  to_queenbee f accepts self2 name2 h2 = (h2', Ok obj2) →
  schema obj1 = schema obj2 ↔ variant self1 = variant self2.
Proof.
  intros (_ & _ & -> & _)%to_queenbee_Ok (_ & _ & -> & _)%to_queenbee_Ok.
  apply schema_of_inj.
Qed.

(** X12. The name of a returned record holds no underscore. *)
Theorem to_queenbee_name_no_underscore self name h h' obj i :
  to_queenbee f accepts self name h = (h', Ok obj) →
  String.get i (data_name (fields obj)) ≠ Some "_"%char.
Proof.
  intros (al & _ & _ & ->)%to_queenbee_Ok. simpl.
  by apply replace_get_ne.
Qed.

(** X13. Names that differ only in underscores against hyphens are not
    told apart: on two names with one normal form [to_queenbee] does the
    same, to the record and to the store. *)
Theorem to_queenbee_name_collision self name1 name2 h :
  replace "_" "-" name1 = replace "_" "-" name2 →
  to_queenbee f accepts self name1 h = to_queenbee f accepts self name2 h.
Proof. intros Heq. unfold to_queenbee. by rewrite Heq. Qed.

Lemma stored_after_twice self d :
  stored_after (stored_after d self) self = stored_after d self.
Proof.
  destruct d as [d0|]; simpl; [|done]. f_equal.
  destruct (dict_truthy d0) eqn:Hd0; [|by rewrite Hd0].
  rewrite annotations_sent_twice.
  by destruct (dict_truthy (annotations_sent _ _)).
Qed.

(** X15. The write happens once: a second conversion leaves the
    descriptor's own annotations as the first left them. *)
Theorem to_queenbee_writes_once self name h :
  annotations_allocated h self →
  stored_annotations
    (to_queenbee f accepts self name
       (to_queenbee f accepts self name h).1).1 self =
  stored_annotations (to_queenbee f accepts self name h).1 self.
Proof.
  intros Hwf. rewrite !to_queenbee_store.
  destruct (annotations_step_returns self h Hwf) as (h1 & l1 & Hs1).
  rewrite Hs1. simpl.
  apply annotations_step_store in Hs1 as (_ & Hst1 & _).
  pose proof (stored_after_allocated _ _ _ Hwf Hst1) as Hwf1.
  destruct (annotations_step_returns self h1 Hwf1) as (h2 & l2 & Hs2).
  rewrite Hs2. simpl.
  apply annotations_step_store in Hs2 as (_ & -> & _).
  by rewrite Hst1, stored_after_twice.
Qed.
End Dispatch.

(** X14. Each of the ten classes is an attribute of [Inputs] under one
    short name and no other, and the ten short names are all the class
    body binds. *)
Theorem Inputs_one_name_each (cls : Variant.t) :
  size Inputs = 10
  ∧ ∃ name, Inputs !! name = Some cls
      ∧ ∀ name', Inputs !! name' = Some cls → name' = name.
Proof.
  split; [by vm_compute|].
  assert (∀ n c, Inputs !! n = Some c → (n, c) ∈ Inputs_attrs) as Hin.
  { intros n c. apply elem_of_list_to_map_2. }
  exists (match cls with
          | Variant.Generic => "any" | Variant.String => "str"
          | Variant.Integer => "int" | Variant.Number => "float"
          | Variant.Boolean => "bool" | Variant.File => "file"
          | Variant.Folder => "folder" | Variant.Path => "path"
          | Variant.Dict => "dict" | Variant.List => "list"
          end).
  destruct cls; (split; [by vm_compute|]);
    intros name' Hn%Hin; unfold Inputs_attrs in Hn;
    repeat (apply elem_of_cons in Hn as [Heq|Hn]; [by simplify_eq|]);
    by apply elem_of_nil in Hn.
Qed.

(** ** The examples, run *)

(** C2. [to_queenbee] on [StringInput(annotations={'unit': 'm'},
    default_local='x')] returns a record and leaves the descriptor's own
    annotations dictionary holding [__default_local__] as well: the
    assignment of line 64 goes to the stored dictionary, which
    [self.annotations or {}] returned itself. *)
Lemma to_queenbee_writes_stored_annotations :
  stored_annotations ex_heap ex_string = Some {[ "unit" := VStr "m" ]}
  ∧ ∃ h' obj,
      to_queenbee id schema_accepts ex_string "my_input" ex_heap = (h', Ok obj)
      ∧ stored_annotations h' ex_string =
        Some (<["__default_local__" := VStr "x"]> {[ "unit" := VStr "m" ]})
      ∧ stored_annotations h' ex_string ≠ stored_annotations ex_heap ex_string.
Proof.
  split; [by vm_compute|].
  eexists _, _. split; [vm_compute; reflexivity|].
  split; [by vm_compute|].
  intros Heq%(f_equal (λ o, o ≫= (.!! "__default_local__"))).
  vm_compute in Heq. discriminate.
Qed.

(** C3 fails as stated: [default_local] is [None] and the returned
    record's annotations hold [__default_local__], which the descriptor's
    own annotations held. *)
Lemma to_queenbee_default_local_unset_present :
  default_local (base ex_string_unset) = VNone
  ∧ ∃ h' obj,
      to_queenbee id schema_accepts ex_string_unset "my_input" ex_reserved_heap
        = (h', Ok obj)
      ∧ data_annotations (fields obj) !! "__default_local__" = Some (VStr "x").
Proof.
  split; [done|]. eexists _, _. split; [vm_compute; reflexivity|].
  by vm_compute.
Qed.

(** C10 fails as stated: [default_local] is [False] on a [BooleanInput]
    and the returned record's annotations hold [__default_local__], which
    the descriptor's own annotations held. *)
Lemma to_queenbee_falsy_default_local_present :
  default_local (base ex_boolean) = VBool false
  ∧ ∃ h' obj,
      to_queenbee id schema_accepts ex_boolean "flag" ex_reserved_heap
        = (h', Ok obj)
      ∧ data_annotations (fields obj) !! "__default_local__" = Some (VStr "x").
Proof.
  split; [done|]. eexists _, _. split; [vm_compute; reflexivity|].
  by vm_compute.
Qed.

(** [to_queenbee('my_input')] on [ex_string] returns a record that binds
    [__default_local__] to ['x'], next to the key the descriptor had. *)
Lemma to_queenbee_default_local_witness :
  ∃ h' obj,
    to_queenbee id schema_accepts ex_string "my_input" ex_heap = (h', Ok obj)
    ∧ data_annotations (fields obj) !! "__default_local__" = Some (VStr "x")
    ∧ data_annotations (fields obj) !! "unit" = Some (VStr "m").
Proof.
  eexists _, _. split; [vm_compute; reflexivity|]. split; [|by vm_compute].
  refine (proj1 (to_queenbee_default_local id schema_accepts
                   ex_string "my_input" ex_heap _ _ _) _);
    [vm_compute; reflexivity | reflexivity].
Defined.

(** [to_queenbee('my_input')] returns a record named ['my-input']. *)
Lemma to_queenbee_name_witness :
  ∃ h' obj,
    to_queenbee id schema_accepts ex_string "my_input" ex_heap = (h', Ok obj)
    ∧ data_name (fields obj) = "my-input".
Proof.
  eexists _, _. split; [vm_compute; reflexivity|].
  refine (proj1 (to_queenbee_name id schema_accepts
                   ex_string "my_input" ex_heap _ _ _));
    vm_compute; reflexivity.
Defined.



(** The record returned for [ex_list] holds its [items_type]. *)
Lemma to_queenbee_items_type_witness :
  ∃ h' obj,
    to_queenbee id schema_accepts ex_list "values" ∅ = (h', Ok obj)
    ∧ data_items_type (fields obj) = Some "Integer".
Proof.
  eexists _, _. split; [vm_compute; reflexivity|].
  refine (proj1 (to_queenbee_items_type id "String" schema_accepts
                   ex_list "values" ∅ _ _ _) _ _ eq_refl);
    vm_compute; reflexivity.
Defined.

(** The record returned for [ex_file] holds its [extensions]. *)
Lemma to_queenbee_extensions_witness :
  ∃ h' obj,
    to_queenbee id schema_accepts ex_file "weather" ∅ = (h', Ok obj)
    ∧ data_extensions (fields obj) = Some (Some ["epw"]).
Proof.
  eexists _, _. split; [vm_compute; reflexivity|].
  refine (proj1 (to_queenbee_extensions id schema_accepts
                   ex_file "weather" ∅ _ _ _) _ _ (or_introl eq_refl));
    vm_compute; reflexivity.
Defined.

(** [default_local=False] adds nothing to [{'unit': 'm'}]. *)
Lemma to_queenbee_falsy_default_local_witness :
  ∃ h' obj,
    to_queenbee id schema_accepts ex_boolean "flag" ex_heap = (h', Ok obj)
    ∧ data_annotations (fields obj) = {[ "unit" := VStr "m" ]}
    ∧ data_annotations (fields obj) !! "__default_local__" = None.
Proof.
  eexists _, _. split; [vm_compute; reflexivity|]. split; [|by vm_compute].
  refine (proj1 (to_queenbee_falsy_default_local id schema_accepts
                   ex_boolean "flag" ex_heap _ _ eq_refl _));
    vm_compute; reflexivity.
Defined.

(** On [ex_string] the stored dictionary ends with both keys. *)
Lemma to_queenbee_writes_through_witness :
  stored_annotations
    (to_queenbee id schema_accepts ex_string "my_input" ex_heap).1 ex_string =
  Some (<["__default_local__" := VStr "x"]> {[ "unit" := VStr "m" ]}).
Proof.
  apply (to_queenbee_writes_through id schema_accepts ex_string "my_input"
           ex_heap 1%positive {[ "unit" := VStr "m" ]});
    vm_compute; reflexivity.
Defined.


(** [default_local=False]: the stored dictionary stays [{'unit': 'm'}]. *)
Lemma to_queenbee_leaves_annotations_witness :
  stored_annotations
    (to_queenbee id schema_accepts ex_boolean "flag" ex_heap).1 ex_boolean =
  Some {[ "unit" := VStr "m" ]}.
Proof.
  refine (eq_trans (to_queenbee_leaves_annotations id schema_accepts
                      ex_boolean "flag" ex_heap (or_introl eq_refl)) _).
  vm_compute; reflexivity.
Defined.

(** Converting [ex_string] twice returns the same record twice. *)
Lemma to_queenbee_repeat_witness :
  ∃ h1 obj,
    to_queenbee id schema_accepts ex_string "my_input" ex_heap = (h1, Ok obj)
    ∧ ∃ h2, to_queenbee id schema_accepts ex_string "my_input" h1 = (h2, Ok obj).
Proof.
  eexists _, _. split; [vm_compute; reflexivity|].
  apply (to_queenbee_repeat id schema_accepts ex_string "my_input" ex_heap).
  vm_compute; reflexivity.
Defined.

(** With [alias] set to [None] the conversion of [ex_string] raises
    [TypeError]. *)
Lemma to_queenbee_alias_None_witness :
  ∃ h', to_queenbee id schema_accepts ex_alias_None "my_input" ex_heap =
        (h', Raise TypeError).
Proof.
  apply (to_queenbee_alias_None id schema_accepts ex_alias_None "my_input"
           ex_heap).
  - intros l [= <-]. eexists. vm_compute. reflexivity.
  - reflexivity.
Defined.

(** A [FileInput] constructed without aliases converts, to a record
    without aliases. *)
Lemma to_queenbee_new_witness :
  ∃ h' r,
    to_queenbee id schema_accepts (new "String" Variant.File ex_kwargs)
      "weather" ∅ = (h', r)
    ∧ (r = Raise ValidationError
       ∨ ∃ obj, r = Ok obj ∧ data_alias (fields obj) = []).
Proof.
  apply (to_queenbee_new id "String" schema_accepts Variant.File ex_kwargs
           "weather" ∅).
  intros l Hl. vm_compute in Hl. discriminate.
Defined.

(** The record of [ex_file] is of the file schema class and holds
    [extensions] and no [items_type]. *)
Lemma to_queenbee_record_shape_witness :
  ∃ h' obj,
    to_queenbee id schema_accepts ex_file "weather" ∅ = (h', Ok obj)
    ∧ (is_Some (data_extensions (fields obj)) ↔
       schema obj = DAGFileInput ∨ schema obj = DAGPathInput)
    ∧ (is_Some (data_items_type (fields obj)) ↔ schema obj = DAGArrayInput).
Proof.
  eexists _, _. split; [vm_compute; reflexivity|].
  refine (proj2 (to_queenbee_record_shape id schema_accepts
                   ex_file "weather" ∅ _ _ _)).
  vm_compute; reflexivity.
Defined.

(** The key ['unit'] of [ex_string] reaches the record. *)
Lemma to_queenbee_keeps_annotations_witness :
  ∃ h' obj,
    to_queenbee id schema_accepts ex_string "my_input" ex_heap = (h', Ok obj)
    ∧ data_annotations (fields obj) !! "unit" = Some (VStr "m").
Proof.
  eexists _, _. split; [vm_compute; reflexivity|].
  refine (eq_trans (to_queenbee_keeps_annotations id schema_accepts
                      ex_string "my_input" ex_heap _ _ "unit" _ _) _);
    [vm_compute; reflexivity | discriminate | by vm_compute].
Defined.

(** A [StringInput] and a [FileInput] give records of two schema
    classes. *)
Lemma to_queenbee_schema_one_to_one_witness :
  ∃ h1 obj1 h2 obj2,
    to_queenbee id schema_accepts ex_string "my_input" ex_heap = (h1, Ok obj1)
    ∧ to_queenbee id schema_accepts ex_file "weather" ∅ = (h2, Ok obj2)
    ∧ (schema obj1 = schema obj2 ↔ variant ex_string = variant ex_file).
Proof.
  eexists _, _, _, _. split; [vm_compute; reflexivity|].
  split; [vm_compute; reflexivity|].
  eapply (to_queenbee_schema_one_to_one id schema_accepts ex_string ex_file
           "my_input" "weather" ex_heap ∅);
    vm_compute; reflexivity.
Defined.

(** The third character of the record's name is not the underscore of
    ['my_input']. *)
Lemma to_queenbee_name_no_underscore_witness :
  ∃ h' obj,
    to_queenbee id schema_accepts ex_string "my_input" ex_heap = (h', Ok obj)
    ∧ String.get 2 (data_name (fields obj)) ≠ Some "_"%char.
Proof.
  eexists _, _. split; [vm_compute; reflexivity|].
  eapply (to_queenbee_name_no_underscore id schema_accepts ex_string
           "my_input" ex_heap).
  vm_compute; reflexivity.
Defined.

(** ['a_b'] and ['a-b'] convert alike. *)
Lemma to_queenbee_name_collision_witness :
  to_queenbee id schema_accepts ex_string "a_b" ex_heap =
  to_queenbee id schema_accepts ex_string "a-b" ex_heap.
Proof.
  apply (to_queenbee_name_collision id schema_accepts ex_string "a_b" "a-b"
           ex_heap).
  reflexivity.
Defined.

(** Converting [ex_string] a second time leaves its annotations as the
    first conversion left them. *)
Lemma to_queenbee_writes_once_witness :
  stored_annotations
    (to_queenbee id schema_accepts ex_string "my_input"
       (to_queenbee id schema_accepts ex_string "my_input" ex_heap).1).1
    ex_string =
  stored_annotations
    (to_queenbee id schema_accepts ex_string "my_input" ex_heap).1 ex_string.
Proof.
  apply (to_queenbee_writes_once id schema_accepts ex_string "my_input"
           ex_heap).
  intros l [= <-]. eexists. vm_compute. reflexivity.
Defined.
